(** * Universal-DevTools-Framework: the FastAPI template

    A shallow embedding of the two Python modules of the template,

    - [app/config.py]: the [Settings] class and the [settings] singleton,
    - [app/main.py]:   the [app] object, its routers and the [root] handler,

    together with the part of the behaviour of their base classes
    ([pydantic_settings.BaseSettings], [fastapi.FastAPI]) that those two
    modules rely on.  Python dictionaries are finite maps ([gmap]) where
    only lookups matter and lists of pairs where the iteration order does. *)

From Stdlib Require Import Ascii String.
From stdpp Require Import gmap strings list fin_maps.

Local Open Scope string_scope.

(** ** Python values and strings *)

Module Python.

(** The Python values that reach a [Settings] field: environment sources
    only ever supply [str]; a keyword argument may be a [str] or a
    [bool]. *)
Inductive PyVal : Type :=
| PyStr (s : string)
| PyBool (b : bool).

#[global] Instance PyVal_eq_dec : EqDecision PyVal.
Proof. solve_decision. Defined.

(** [str.lower()] on ASCII text: only [A]..[Z] are changed.  This is
    what Python does on names and tokens written in ASCII, which covers
    the field names and the boolean tokens; a name with a letter outside
    ASCII is lower-cased by Python and left alone here, so statements
    that depend on undeclared names are made for ASCII names only (see
    [Startup.ascii_keys]). *)
Definition ascii_lower (c : ascii) : ascii :=
  let n := nat_of_ascii c in
  if (65 <=? n)%nat && (n <=? 90)%nat then ascii_of_nat (n + 32) else c.

Fixpoint lower (s : string) : string :=
  match s with
  | EmptyString => EmptyString
  | String c s' => String (ascii_lower c) (lower s')
  end.

(** Membership of a string in a list literal, [s in (..., ...)]. *)
Definition str_in (s : string) (l : list string) : bool :=
  existsb (String.eqb s) l.

End Python.

(** ** Field validation (pydantic, lax mode)

    [Settings] declares its fields and inherits everything else.  This
    module and the next embed what the inherited constructor does with a
    [str] and a [bool] field under the configuration the class ends up
    with: the defaults of [BaseSettings] ([case_sensitive = False], empty
    [env_prefix], [extra = 'forbid'], no secrets directory) and the
    [env_file] set in [Config]. *)

Module Pydantic.
Import Python.

(** One line of a [ValidationError]: the error type and the field (or
    key) it is located at. *)
Inductive ErrorType : Type :=
| string_type
| bool_parsing
| extra_forbidden.

Record ErrorDetails : Type := mkError {
  err_type : ErrorType;
  err_loc : string
}.

#[global] Instance ErrorType_eq_dec : EqDecision ErrorType.
Proof. solve_decision. Defined.

#[global] Instance ErrorDetails_eq_dec : EqDecision ErrorDetails.
Proof. solve_decision. Defined.

(** Construction of a model either returns the instance or raises a
    [ValidationError] carrying its lines. *)
Inductive Result (A : Type) : Type :=
| Ok (a : A)
| ValidationError (errs : list ErrorDetails).
Arguments Ok {A} a.
Arguments ValidationError {A} errs.

Definition is_Ok {A} (r : Result A) : Prop :=
  match r with Ok _ => True | ValidationError _ => False end.

Definition raises {A} (r : Result A) : Prop :=
  match r with Ok _ => False | ValidationError _ => True end.

(** The tokens accepted for a [bool] field.  The comparison ignores
    ASCII case; the falsy tokens are tried first. *)
Definition false_tokens : list string := ["0"; "f"; "n"; "no"; "off"; "false"].
Definition true_tokens : list string := ["1"; "t"; "y"; "on"; "yes"; "true"].

Definition str_as_bool (s : string) : option bool :=
  if str_in (lower s) false_tokens then Some false
  else if str_in (lower s) true_tokens then Some true
  else None.

(** [app_name: str]: a [str] is taken as it is, a [bool] is refused. *)
Definition validate_str (v : PyVal) : option string :=
  match v with
  | PyStr s => Some s
  | PyBool _ => None
  end.

(** [debug: bool]: a [bool] is taken as it is, a [str] goes through the
    token table. *)
Definition validate_bool (v : PyVal) : option bool :=
  match v with
  | PyBool b => Some b
  | PyStr s => str_as_bool s
  end.

End Pydantic.

(** ** Settings sources (pydantic-settings) *)

Module PydanticSettings.
Import Python.

(** What a construction can observe of the process: the environment
    variables, in the order [os.environ] iterates them, and the dotenv
    files of the working directory, each as the key/value bindings it
    parses to (a key written without [=] has no value).  The bindings
    are those obtained in this environment: a [${NAME}] in the file has
    already been expanded from it, so a statement that changes the
    environment of a world speaks of worlds without a dotenv file.  A
    file that exists and cannot be read or decoded parses to nothing and
    is not a world; [Startup.Host] adds that case. *)
Record World : Type := mkWorld {
  environ : list (string * string);
  files : gmap string (list (string * option string))
}.

Section Sources.
(** The names of the declared fields of the settings class, in
    declaration order.  With an empty [env_prefix] and
    [case_sensitive = False], the variable read for a field is the
    field's name in lower case. *)
Variable model_fields : list string.

Definition env_name (field_name : string) : string := lower field_name.

(** [{k.lower(): v for k, v in env_vars.items()}]: a later binding
    replaces an earlier one whose key differs only by case. *)
Definition parse_env_vars {V} (env_vars : list (string * V)) : gmap string V :=
  foldl (fun m kv => <[lower kv.1 := kv.2]> m) ∅ env_vars.

(** The loop over the declared fields common to both environment
    sources: a field is put in [data] when its variable has a value. *)
Definition fields_data (env_vars : gmap string (option string)) : gmap string PyVal :=
  foldl (fun data field_name =>
           match env_vars !! env_name field_name with
           | Some (Some env_val) => <[field_name := PyStr env_val]> data
           | _ => data
           end) ∅ model_fields.

(** [EnvSettingsSource]: the process environment. *)
Definition env_settings (w : World) : gmap string PyVal :=
  fields_data (Some <$> parse_env_vars (environ w)).

(** The bindings of a dotenv file that belong to no declared field
    and have a non-empty value: they are handed to the model as they
    are. *)
Definition dotenv_extra (env_vars : gmap string (option string)) : gmap string PyVal :=
  omap (fun env_value =>
          match env_value with
          | Some v => if decide (v = "") then None else Some (PyStr v)
          | None => None
          end)
       (filter (fun kv => kv.1 ∉ env_name <$> model_fields) env_vars).

(** [DotEnvSettingsSource]: the file named by [env_file], when it
    exists. *)
Definition dotenv_settings (env_file : string) (w : World) : gmap string PyVal :=
  match files w !! env_file with
  | None => ∅
  | Some bindings =>
      let env_vars := parse_env_vars bindings in
      fields_data env_vars ∪ dotenv_extra env_vars
  end.

(** [deep_update(source_state, state)] over the sources in order:
    what an earlier source supplies is kept. *)
Definition build_values (init_kwargs : gmap string PyVal)
    (env_file : string) (w : World) : gmap string PyVal :=
  foldl (fun state source_state => state ∪ source_state) ∅
        [init_kwargs; env_settings w; dotenv_settings env_file w].

End Sources.

End PydanticSettings.


(** ** app/config.py *)

Module Config.
Import Python Pydantic PydanticSettings.

(** [class Settings(BaseSettings)] with its two annotated fields. *)
Record Settings : Type := mkSettings {
  app_name : string;
  debug : bool
}.

#[global] Instance Settings_eq_dec : EqDecision Settings.
Proof. solve_decision. Defined.

Definition default_app_name : string := "My FastAPI App".
Definition default_debug : bool := false.

Definition model_fields : list string := ["app_name"; "debug"].

(** [class Config: env_file = ".env"] *)
Definition env_file : string := ".env".

(** Validation of one declared field: the default when the sources gave
    nothing, the validated input otherwise.  The error line records
    where the refusal is; its type is the one the field's validator
    gives to a refused token. *)
Definition validate_field {A} (validator : PyVal -> option A) (default : A)
    (err : ErrorType) (name : string) (state : gmap string PyVal) : A + ErrorDetails :=
  match state !! name with
  | None => inl default
  | Some v =>
      match validator v with
      | Some a => inl a
      | None => inr (mkError err name)
      end
  end.

Definition field_errors {A} (r : A + ErrorDetails) : list ErrorDetails :=
  match r with
  | inl _ => []
  | inr e => [e]
  end.

(** The keys handed to the model that name no declared field; the
    inherited configuration has [extra = 'forbid']. *)
Definition extra_keys (state : gmap string PyVal) : list string :=
  elements (filter (fun k => k ∉ model_fields) (dom state)).

(** [Settings.__init__] on the merged values: every declared field is
    validated, every other key is an error, and all the errors are
    raised together. *)
Definition model_validate (state : gmap string PyVal) : Result Settings :=
  let a := validate_field validate_str default_app_name string_type "app_name" state in
  let d := validate_field validate_bool default_debug bool_parsing "debug" state in
  let extra := mkError extra_forbidden <$> extra_keys state in
  match a, d, extra with
  | inl a', inl d', [] => Ok (mkSettings a' d')
  | _, _, _ => ValidationError (field_errors a ++ field_errors d ++ extra)
  end.

(** The call [Settings(...)] with the given keyword arguments, which
    are values for fields, keyed by the field names as declared.  The
    underscore keywords that reconfigure the sources ([_env_file] and
    the like) and keywords spelt in another case are not field values
    in this sense; statements about keyword arguments are made for keys
    among [model_fields]. *)
Definition Settings_init (init_kwargs : gmap string PyVal) (w : World) : Result Settings :=
  model_validate (build_values model_fields init_kwargs env_file w).

(** The module body: the class statement, then [settings = Settings()].
    An exception raised there makes the import of the module fail. *)
Record Module_ : Type := mkModule {
  settings : Settings
}.

Definition load (w : World) : Result Module_ :=
  match Settings_init ∅ w with
  | Ok s => Ok (mkModule s)
  | ValidationError errs => ValidationError errs
  end.

(** Attribute access on the imported [settings] object, as far as the
    two fields and values of their declared types go.  The class is not
    frozen and does not validate assignments: an assignment to a
    declared field stores the value. *)
Inductive ConsumerOp : Type :=
| GetAppName
| GetDebug
| SetAppName (s : string)
| SetDebug (b : bool).

Definition run_op (op : ConsumerOp) (m : Module_) : option PyVal * Module_ :=
  match op with
  | GetAppName => (Some (PyStr (app_name (settings m))), m)
  | GetDebug => (Some (PyBool (debug (settings m))), m)
  | SetAppName s => (None, mkModule (mkSettings s (debug (settings m))))
  | SetDebug b => (None, mkModule (mkSettings (app_name (settings m)) b))
  end.

End Config.

(** ** Reading a world: the vocabulary of the specification *)

Module Resolution.
Import Python Pydantic PydanticSettings Config.

(** The binding that counts for a name among bindings whose keys are
    compared without case: the last one. *)
Fixpoint last_binding {V} (name : string) (bindings : list (string * V)) : option V :=
  match bindings with
  | [] => None
  | kv :: rest =>
      match last_binding name rest with
      | Some v => Some v
      | None => if decide (lower kv.1 = name) then Some kv.2 else None
      end
  end.

(** The value of the environment variable mapped to a field. *)
Definition env_var (w : World) (field_name : string) : option string :=
  last_binding (lower field_name) (environ w).

(** The value the environment file gives to a field, when the file
    exists and binds the field's variable to a value. *)
Definition file_var (w : World) (field_name : string) : option string :=
  match files w !! env_file with
  | Some bindings => mjoin (last_binding (lower field_name) bindings)
  | None => None
  end.

(** The order of precedence, in the words of the specification: an
    explicit override, then the environment variable, then the
    environment file; [None] leaves the hard-coded default. *)
Definition resolve (init_kwargs : gmap string PyVal) (w : World) (field_name : string)
    : option PyVal :=
  match init_kwargs !! field_name with
  | Some v => Some v
  | None =>
      match env_var w field_name with
      | Some s => Some (PyStr s)
      | None => PyStr <$> file_var w field_name
      end
  end.

(** The environment file binds [key], which names no declared field, to
    the non-empty value [v]. *)
Definition undeclared_binding (w : World) (key v : string) : Prop :=
  exists bindings,
    files w !! env_file = Some bindings /\
    last_binding key bindings = Some (Some v) /\
    v <> "" /\ key ∉ model_fields.

Definition names_only_declared_fields (w : World) : Prop :=
  forall key v, ~ undeclared_binding w key v.

(** What the environment sources say about [debug] is acceptable when
    the value that takes precedence, if there is one, is a boolean
    token. *)
Definition debug_acceptable (w : World) : Prop :=
  forall tok, resolve ∅ w "debug" = Some (PyStr tok) -> is_Some (str_as_bool tok).

(** The tokens that mean true, case ignored, and the strings that
    cannot be coerced to a [bool]. *)
Definition truthy (tok : string) : Prop :=
  lower tok ∈ ["1"; "t"; "y"; "on"; "yes"; "true"].

Definition not_a_bool (tok : string) : Prop := str_as_bool tok = None.

End Resolution.

(** ** Sample worlds *)

Module Examples.
Import Python PydanticSettings.

(** Nothing relevant in the environment, no [.env] file. *)
Definition bare_world : World :=
  mkWorld [("PATH", "/usr/bin"); ("HOME", "/root")] ∅.

(** A [.env] file with one key that names no field. *)
Definition extra_key_world : World :=
  mkWorld [] {[ ".env" := [("FOO", Some "bar")] ]}.

(** A bad [DEBUG] in the file, hidden by a good one in the environment. *)
Definition shadowed_world : World :=
  mkWorld [("DEBUG", "true")] {[ ".env" := [("DEBUG", Some "maybe")] ]}.

(** Every source has something to say. *)
Definition busy_world : World :=
  mkWorld [("HOME", "/root"); ("Debug", "YES"); ("APP_NAME", "from env")]
          {[ ".env" := [("APP_NAME", Some "from file"); ("DEBUG", Some "0")] ]}.

(** Only the file speaks, and only about [app_name]. *)
Definition file_world : World :=
  mkWorld [("HOME", "/root")] {[ ".env" := [("app_name", Some "from file"); ("DEBUG", None)] ]}.

End Examples.

(** ** The web framework: routes and dispatch *)

Module FastAPI.
Import Python.

(** JSON values, as far as the responses of this scope need them. *)
#[local] Unset Elimination Schemes.
Inductive JSON : Type :=
| JNull
| JStr (s : string)
| JObj (members : list (string * JSON)).
#[local] Set Elimination Schemes.

Record Request : Type := mkRequest {
  method : string;
  path : string;
  query_string : string;
  headers : list (string * string);
  body : string
}.

Record Response : Type := mkResponse {
  status_code : nat;
  content : JSON
}.

Inductive Match : Type := NONE | PARTIAL | FULL.

Section Routing.
(** The process state an endpoint can reach: the module-level objects
    (application, routers, settings singleton) live in it. *)
Variable State : Type.

Definition Endpoint : Type := State -> JSON * State.

(** A route with a literal path, which is all this scope registers. *)
Record APIRoute : Type := mkRoute {
  route_path : string;
  route_methods : list string;
  route_endpoint : Endpoint;
  route_status : nat
}.

Record APIRouter : Type := mkRouter {
  prefix : string;
  router_routes : list APIRoute
}.

(** The constructor refuses a prefix that does not start with [/] or
    that ends with [/]. *)
Definition starts_with_slash (s : string) : bool :=
  match s with
  | String c _ => Ascii.eqb c "/"
  | EmptyString => false
  end.

Fixpoint ends_with_slash (s : string) : bool :=
  match s with
  | EmptyString => false
  | String c EmptyString => Ascii.eqb c "/"
  | String _ s' => ends_with_slash s'
  end.

Definition valid_prefix (p : string) : bool :=
  match p with
  | EmptyString => true
  | _ => starts_with_slash p && negb (ends_with_slash p)
  end.

Record FastAPI : Type := mkApp {
  title : string;
  description : string;
  version : string;
  routes : list APIRoute
}.

(** The documentation routes every application starts with; their
    endpoints belong to the framework. *)
Variable docs_endpoint : string -> Endpoint.

Definition docs_route (p : string) : APIRoute :=
  mkRoute p ["GET"; "HEAD"] (docs_endpoint p) 200.

Definition new_app (title description version : string) : FastAPI :=
  mkApp title description version
        (docs_route <$> ["/openapi.json"; "/docs"; "/docs/oauth2-redirect"; "/redoc"]).

(** [app.include_router(router)]: each route of the router is added
    under the router's prefix. *)
Definition add_prefix (p : string) (r : APIRoute) : APIRoute :=
  mkRoute (String.append p (route_path r)) (route_methods r) (route_endpoint r) (route_status r).

Definition include_router (app : FastAPI) (router : APIRouter) : FastAPI :=
  mkApp (title app) (description app) (version app)
        (routes app ++ (add_prefix (prefix router) <$> router_routes router))%list.

(** [@app.get(path)]: one more route, for [GET], answering 200. *)
Definition get (app : FastAPI) (path : string) (endpoint : Endpoint) : FastAPI :=
  mkApp (title app) (description app) (version app)
        (routes app ++ [mkRoute path ["GET"] endpoint 200])%list.

(** A literal route path matches the request path equal to it.  (The
    pattern the framework compiles also accepts that path followed by
    one line feed; statements about paths that match no route are made
    for request paths without a line feed.) *)
Definition matches (r : APIRoute) (req : Request) : Match :=
  if String.eqb (route_path r) (path req) then
    if str_in (method req) (route_methods r) then FULL else PARTIAL
  else NONE.

(** The router, once included, answers [method] at path [p]. *)
Definition serves (router : APIRouter) (method p : string) : Prop :=
  exists r, r ∈ router_routes router /\
            String.append (prefix router) (route_path r) = p /\
            str_in method (route_methods r) = true.

(** The first full match is served; failing that, the first route whose
    path alone matched. *)
Fixpoint find_route (rs : list APIRoute) (req : Request) (partial : option APIRoute)
    : option (Match * APIRoute) :=
  match rs with
  | [] => (fun r => (PARTIAL, r)) <$> partial
  | r :: rs' =>
      match matches r req with
      | FULL => Some (FULL, r)
      | PARTIAL => find_route rs' req (match partial with Some p => Some p | None => Some r end)
      | NONE => find_route rs' req partial
      end
  end.

Definition detail (msg : string) : JSON := JObj [("detail", JStr msg)].

(** The path with its trailing slash removed, or added. *)
Fixpoint rstrip_slash (s : string) : string :=
  match s with
  | EmptyString => EmptyString
  | String c s' =>
      match rstrip_slash s' with
      | EmptyString => if Ascii.eqb c "/" then EmptyString else String c EmptyString
      | t => String c t
      end
  end.

Definition redirect_path (p : string) : string :=
  if ends_with_slash p then rstrip_slash p else String.append p "/".

Definition handle (app : FastAPI) (req : Request) (st : State) : Response * State :=
  match find_route (routes app) req None with
  | Some (FULL, r) =>
      let '(result, st') := route_endpoint r st in
      (mkResponse (route_status r) result, st')
  | Some (_, _) => (mkResponse 405 (detail "Method Not Allowed"), st)
  | None =>
      if negb (String.eqb (path req) "/") &&
         existsb (fun r => String.eqb (route_path r) (redirect_path (path req))) (routes app)
      then (mkResponse 307 JNull, st)
      else (mkResponse 404 (detail "Not Found"), st)
  end.

End Routing.

End FastAPI.

(** ** app/main.py *)

Module Main.
Import FastAPI.

Section App.
Variable State : Type.
Variable docs_endpoint : string -> Endpoint State.

(** [from app.routes import health]: the router of the health-check
    module, which is outside this scope. *)
Variable health_router : APIRouter State.

(** [async def root()] *)
Definition root : Endpoint State :=
  fun st =>
    (JObj [("message", JStr "Welcome to FastAPI");
           ("docs", JStr "/docs");
           ("health", JStr "/health")], st).

(** The module body: construct, include the router, register [root]. *)
Definition app : FastAPI State :=
  get State
    (include_router State
       (new_app State docs_endpoint "My FastAPI App" "Created with DevTools Framework" "1.0.0")
       health_router)
    "/" root.

End App.

(** The body [root] returns, as the JSON value it is. *)
Definition welcome : JSON :=
  JObj [("message", JStr "Welcome to FastAPI");
        ("docs", JStr "/docs");
        ("health", JStr "/health")].

End Main.

(** ** A sample process around the application *)

Module MainExamples.
Import FastAPI.

(** The process state is the loaded configuration module; the health
    router is mounted under [/health] and has one [GET] route. *)
Definition health_check : Endpoint Config.Module_ :=
  fun st => (JObj [("status", JStr "healthy")], st).

Definition sample_health_router : APIRouter Config.Module_ :=
  mkRouter Config.Module_ "/health" [mkRoute Config.Module_ "" ["GET"] health_check 200].

Definition sample_docs_endpoint : string -> Endpoint Config.Module_ :=
  fun _ st => (JNull, st).

Definition sample_app : FastAPI Config.Module_ :=
  Main.app Config.Module_ sample_docs_endpoint sample_health_router.

Definition sample_process : Config.Module_ :=
  Config.mkModule (Config.mkSettings "Another name" true).

Definition get_root : Request :=
  mkRequest "GET" "/" "verbose=1" [("accept", "*/*")] "".

End MainExamples.

(** ** Further vocabulary: variables, tokens and paths *)

Module Observations.
Import Python Pydantic PydanticSettings Config FastAPI.

(** The tokens that mean false, case ignored. *)
Definition falsy (tok : string) : Prop :=
  lower tok ∈ ["0"; "f"; "n"; "no"; "off"; "false"].

(** An environment variable is relevant when its name, case ignored, is
    that of a declared field. *)
Definition relevant (kv : string * string) : Prop := lower kv.1 ∈ model_fields.

#[global] Instance relevant_dec kv : Decision (relevant kv).
Proof. unfold relevant. apply _. Defined.

(** A path with a line feed in it. *)
Fixpoint has_newline (s : string) : bool :=
  match s with
  | EmptyString => false
  | String c s' => (nat_of_ascii c =? 10)%nat || has_newline s'
  end.

(** A path with a brace in it, and a router all of whose paths are
    literal: none declares a path parameter. *)
Fixpoint has_brace (s : string) : bool :=
  match s with
  | EmptyString => false
  | String c s' => (nat_of_ascii c =? 123)%nat || has_brace s'
  end.

Definition literal_paths {State} (router : APIRouter State) : Prop :=
  has_brace (prefix State router) = false /\
  Forall (fun r => has_brace (route_path State r) = false) (router_routes State router).

(** The state after serving a sequence of requests one after the
    other. *)
Definition serve_all {State} (app : FastAPI State) (reqs : list Request) (st : State) : State :=
  foldl (fun st req => (handle State app req st).2) st reqs.

#[global] Instance Match_eq_dec : EqDecision Match.
Proof. solve_decision. Defined.

(** The paths of the documentation routes. *)
Definition docs_paths : list string :=
  ["/openapi.json"; "/docs"; "/docs/oauth2-redirect"; "/redoc"].

(** The paths an application has a route for, in registration order. *)
Definition route_paths {State} (app : FastAPI State) : list string :=
  route_path State <$> routes State app.

(** The answer of a route: its status with the endpoint's result, and
    the state the endpoint leaves. *)
Definition run_route {State} (r : APIRoute State) (st : State) : Response * State :=
  (mkResponse (route_status State r) (route_endpoint State r st).1,
   (route_endpoint State r st).2).

End Observations.

(** ** Starting a process that imports the configuration *)

Module Startup.
Import Python Pydantic PydanticSettings Config.

(** The [.env] file of the working directory: absent, present but
    impossible to read or decode, or parsed to its bindings. *)
Inductive EnvFile : Type :=
| Absent
| Unreadable
| Parsed (bindings : list (string * option string)).

Record Host : Type := mkHost {
  host_environ : list (string * string);
  host_env_file : EnvFile
}.

(** What a construction sees when the file can be read. *)
Definition visible_world (h : Host) : option World :=
  match host_env_file h with
  | Absent => Some (mkWorld (host_environ h) ∅)
  | Parsed bindings => Some (mkWorld (host_environ h) {[ env_file := bindings ]})
  | Unreadable => None
  end.

(** A step of the start either completes, or raises a validation
    error, or raises the error of reading the file. *)
Inductive Outcome (A : Type) : Type :=
| Completed (a : A)
| Invalid (errs : list ErrorDetails)
| ReadError.
Arguments Completed {A} a.
Arguments Invalid {A} errs.
Arguments ReadError {A}.

Definition fails {A} (o : Outcome A) : Prop :=
  match o with Completed _ => False | _ => True end.

(** [Settings()] on a host: the dotenv source reads the file while the
    sources are built, before anything is validated. *)
Definition construct (h : Host) : Outcome Settings :=
  match visible_world h with
  | None => ReadError
  | Some w =>
      match Settings_init ∅ w with
      | Ok r => Completed r
      | ValidationError errs => Invalid errs
      end
  end.

(** The module body of [app/config.py]. *)
Definition import_config (h : Host) : Outcome Module_ :=
  match construct h with
  | Completed r => Completed (mkModule r)
  | Invalid errs => Invalid errs
  | ReadError => ReadError
  end.

(** A process whose start imports the module and then runs [importer]
    with it: an exception raised by the import ends the start. *)
Definition start {A} (h : Host) (importer : Module_ -> A) : Outcome A :=
  match import_config h with
  | Completed m => Completed (importer m)
  | Invalid errs => Invalid errs
  | ReadError => ReadError
  end.

(** Names written in ASCII. *)
Fixpoint is_ascii (s : string) : bool :=
  match s with
  | EmptyString => true
  | String c s' => (nat_of_ascii c <? 128)%nat && is_ascii s'
  end.

Definition ascii_keys (h : Host) : Prop :=
  match host_env_file h with
  | Parsed bindings => Forall (fun kv => is_ascii kv.1 = true) bindings
  | _ => True
  end.

End Startup.

(** A health router without prefix whose only route is [GET /]. *)
Module ShadowExample.
Import FastAPI.

Definition greedy_endpoint : Endpoint Config.Module_ :=
  fun st => (JObj [("status", JStr "healthy")], st).

Definition greedy_router : APIRouter Config.Module_ :=
  mkRouter Config.Module_ "" [mkRoute Config.Module_ "/" ["GET"] greedy_endpoint 200].

End ShadowExample.

(** * Properties *)

(** ** The settings sources *)

Section SourceFacts.
Import Python Pydantic PydanticSettings Config Resolution.

Lemma lower_model_fields : env_name <$> model_fields = model_fields.
Proof. reflexivity. Qed.

(** The dictionary built from the bindings answers with the last
    binding of a name. *)
Lemma parse_env_vars_from {V} (bindings : list (string * V)) (acc : gmap string V) name :
  foldl (fun m kv => <[lower kv.1 := kv.2]> m) acc bindings !! name =
  match last_binding name bindings with
  | Some v => Some v
  | None => acc !! name
  end.
Proof.
  revert acc. induction bindings as [|[k v] rest IH]; intros acc; simpl; [done|].
  rewrite IH. destruct (last_binding name rest); [done|].
  case_decide as Hk.
  - subst name. by rewrite lookup_insert_eq.
  - by rewrite lookup_insert_ne.
Qed.

Lemma parse_env_vars_lookup {V} (bindings : list (string * V)) name :
  parse_env_vars bindings !! name = last_binding name bindings.
Proof.
  unfold parse_env_vars. rewrite parse_env_vars_from, lookup_empty.
  by destruct (last_binding name bindings).
Qed.

Lemma last_binding_None {V} (bindings : list (string * V)) name :
  Forall (fun kv => lower kv.1 <> name) bindings -> last_binding name bindings = None.
Proof.
  induction 1 as [|[k v] rest Hk _ IH]; simpl; [done|].
  rewrite IH. by case_decide.
Qed.

(** A declared field is in [data] exactly when its variable has a
    value. *)
Lemma fields_data_from (fields : list string) (env_vars : gmap string (option string))
    (acc : gmap string PyVal) name :
  foldl (fun data field_name =>
           match env_vars !! env_name field_name with
           | Some (Some env_val) => <[field_name := PyStr env_val]> data
           | _ => data
           end) acc fields !! name =
  match (if decide (name ∈ fields) then mjoin (env_vars !! env_name name) else None) with
  | Some v => Some (PyStr v)
  | None => acc !! name
  end.
Proof.
  revert acc. induction fields as [|f fields IH]; intros acc; cbn [foldl].
  - by rewrite decide_False by apply not_elem_of_nil.
  - rewrite IH. destruct (decide (f = name)) as [->|Hne].
    + rewrite (decide_True (P := name ∈ name :: fields)) by apply list_elem_of_here.
      destruct (env_vars !! env_name name) as [[v|]|] eqn:Hv; simpl.
      * rewrite lookup_insert_eq. by case_decide.
      * by case_decide.
      * by case_decide.
    + assert ((match env_vars !! env_name f with
               | Some (Some env_val) => <[f := PyStr env_val]> acc
               | _ => acc
               end) !! name = acc !! name) as ->.
      { destruct (env_vars !! env_name f) as [[v|]|]; [|done..].
        by rewrite lookup_insert_ne. }
      destruct (decide (name ∈ fields)) as [Hin|Hnin].
      * rewrite (decide_True (P := name ∈ f :: fields)); [done|].
        by apply list_elem_of_further.
      * rewrite (decide_False (P := name ∈ f :: fields)); [done|].
        intros [?|?]%elem_of_cons; by subst.
Qed.

Lemma fields_data_lookup (fields : list string) env_vars name :
  fields_data fields env_vars !! name =
  if decide (name ∈ fields) then PyStr <$> mjoin (env_vars !! env_name name) else None.
Proof.
  unfold fields_data. rewrite fields_data_from, lookup_empty.
  case_decide; [|done]. by destruct (mjoin _).
Qed.

Lemma env_settings_lookup (w : World) name :
  env_settings model_fields w !! name =
  if decide (name ∈ model_fields) then PyStr <$> env_var w name else None.
Proof.
  unfold env_settings, env_var. rewrite fields_data_lookup.
  case_decide; [|done].
  rewrite lookup_fmap, parse_env_vars_lookup. unfold env_name.
  by destruct (last_binding _ _).
Qed.

Lemma dotenv_extra_lookup (env_vars : gmap string (option string)) name :
  dotenv_extra model_fields env_vars !! name =
  if decide (name ∈ model_fields) then None
  else match env_vars !! name with
       | Some (Some v) => if decide (v = "") then None else Some (PyStr v)
       | _ => None
       end.
Proof.
  unfold dotenv_extra. rewrite lookup_omap, map_lookup_filter, lower_model_fields.
  destruct (env_vars !! name) as [ov|]; simpl.
  - case_guard; simpl.
    + by rewrite decide_False.
    + by rewrite decide_True.
  - by case_decide.
Qed.

End SourceFacts.

(** ** Merging the sources and validating *)

Section ConstructionFacts.
Import Python Pydantic PydanticSettings Config Resolution.

Lemma build_values_lookup (kw : gmap string PyVal) (w : World) name :
  build_values model_fields kw env_file w !! name =
  kw !! name ∪ (env_settings model_fields w !! name ∪
                dotenv_settings model_fields env_file w !! name).
Proof.
  unfold build_values. cbn [foldl].
  rewrite (left_id_L ∅ (∪)), !lookup_union.
  by destruct (kw !! name), (env_settings model_fields w !! name),
    (dotenv_settings model_fields env_file w !! name).
Qed.

Lemma dotenv_settings_declared (w : World) name :
  name ∈ model_fields ->
  dotenv_settings model_fields env_file w !! name = PyStr <$> file_var w name.
Proof.
  intros Hin. unfold dotenv_settings, file_var.
  destruct (files w !! env_file) as [bindings|]; [|by rewrite lookup_empty].
  rewrite lookup_union, fields_data_lookup, dotenv_extra_lookup, !decide_True by done.
  rewrite parse_env_vars_lookup. unfold env_name.
  by destruct (mjoin _).
Qed.

Lemma dotenv_settings_undeclared (w : World) name :
  name ∉ model_fields ->
  dotenv_settings model_fields env_file w !! name =
  match files w !! env_file with
  | Some bindings =>
      match last_binding name bindings with
      | Some (Some v) => if decide (v = "") then None else Some (PyStr v)
      | _ => None
      end
  | None => None
  end.
Proof.
  intros Hnin. unfold dotenv_settings.
  destruct (files w !! env_file) as [bindings|]; [|by rewrite lookup_empty].
  rewrite lookup_union, fields_data_lookup, dotenv_extra_lookup, !decide_False by done.
  rewrite parse_env_vars_lookup.
  destruct (last_binding name bindings) as [[v|]|]; [|done..].
  by case_decide.
Qed.

(** On a declared field the merged values follow the order of
    precedence. *)
Lemma build_values_declared (kw : gmap string PyVal) (w : World) name :
  name ∈ model_fields ->
  build_values model_fields kw env_file w !! name = resolve kw w name.
Proof.
  intros Hin. rewrite build_values_lookup, env_settings_lookup, decide_True by done.
  rewrite dotenv_settings_declared by done. unfold resolve.
  by destruct (kw !! name), (env_var w name), (file_var w name).
Qed.

Lemma build_values_undeclared (w : World) name :
  name ∉ model_fields ->
  build_values model_fields ∅ env_file w !! name =
  dotenv_settings model_fields env_file w !! name.
Proof.
  intros Hnin. rewrite build_values_lookup, env_settings_lookup, decide_False by done.
  rewrite lookup_empty. by destruct (dotenv_settings _ _ _ !! _).
Qed.

Lemma undeclared_binding_lookup (w : World) key v :
  undeclared_binding w key v <->
  (key ∉ model_fields) /\ build_values model_fields ∅ env_file w !! key = Some (PyStr v).
Proof.
  split.
  - intros (bindings & Hfile & Hlast & Hv & Hkey). split; [done|].
    rewrite build_values_undeclared, dotenv_settings_undeclared, Hfile, Hlast by done.
    by rewrite decide_False.
  - intros [Hkey Hlook]. unfold undeclared_binding.
    rewrite build_values_undeclared, dotenv_settings_undeclared in Hlook by done.
    destruct (files w !! env_file) as [bindings|]; [|done].
    exists bindings. destruct (last_binding key bindings) as [[v'|]|]; [|done..].
    case_decide; [done|]. by simplify_eq.
Qed.

Lemma elem_of_extra_keys (state : gmap string PyVal) key :
  key ∈ extra_keys state <-> (key ∉ model_fields) /\ is_Some (state !! key).
Proof.
  unfold extra_keys. rewrite elem_of_elements, elem_of_filter, elem_of_dom. tauto.
Qed.

Lemma extra_keys_of_environment (w : World) key :
  key ∈ extra_keys (build_values model_fields ∅ env_file w) <->
  exists v, undeclared_binding w key v.
Proof.
  rewrite elem_of_extra_keys. split.
  - intros [Hkey [x Hx]]. pose proof Hx as Hx'.
    rewrite build_values_undeclared, dotenv_settings_undeclared in Hx' by done.
    destruct (files w !! env_file) as [bindings|]; [|done].
    destruct (last_binding key bindings) as [[v|]|] eqn:Hlast; [|done..].
    case_decide; [done|]. simplify_eq.
    exists v. by apply undeclared_binding_lookup.
  - intros [v [Hkey Hlook]%undeclared_binding_lookup]. by rewrite Hlook.
Qed.

Lemma validate_field_inl {A} (validator : PyVal -> option A) (dflt : A) err name
    (state : gmap string PyVal) (inject : A -> PyVal) (a : A) :
  validator (inject dflt) = Some dflt ->
  validate_field validator dflt err name state = inl a <->
  validator (default (inject dflt) (state !! name)) = Some a.
Proof.
  intros Hdflt. unfold validate_field.
  destruct (state !! name) as [v|]; simpl.
  - destruct (validator v); naive_solver.
  - rewrite Hdflt. naive_solver.
Qed.

(** Construction returns a record exactly when both fields validate and
    no undeclared key was handed over. *)
Lemma model_validate_Ok (state : gmap string PyVal) (r : Settings) :
  model_validate state = Ok r <->
  validate_str (default (PyStr default_app_name) (state !! "app_name")) = Some (app_name r) /\
  validate_bool (default (PyBool default_debug) (state !! "debug")) = Some (debug r) /\
  extra_keys state = [].
Proof.
  rewrite <-(validate_field_inl validate_str default_app_name string_type "app_name" state PyStr)
    by done.
  rewrite <-(validate_field_inl validate_bool default_debug bool_parsing "debug" state PyBool)
    by done.
  unfold model_validate.
  destruct (validate_field validate_str _ _ _ _) as [a|ea],
           (validate_field validate_bool _ _ _ _) as [d|ed],
           (extra_keys state) as [|k ks]; simpl; destruct r as [a' d'];
    split; (intros [=] || intros ([=] & [=] & [=])); by subst.
Qed.

Lemma model_validate_errors (state : gmap string PyVal) (errs : list ErrorDetails) :
  model_validate state = ValidationError errs ->
  errs =
    (field_errors (validate_field validate_str default_app_name string_type "app_name" state) ++
     field_errors (validate_field validate_bool default_debug bool_parsing "debug" state) ++
     (mkError extra_forbidden <$> extra_keys state))%list.
Proof.
  unfold model_validate.
  destruct (validate_field validate_str _ _ _ _) as [a|ea],
           (validate_field validate_bool _ _ _ _) as [d|ed],
           (extra_keys state) as [|k ks]; simpl; intros [=]; by subst.
Qed.

End ConstructionFacts.

(** ** The Settings class *)

Section SettingsProperties.
Import Python Pydantic PydanticSettings Config Resolution Examples Observations Startup.

Lemma app_name_declared : "app_name" ∈ model_fields.
Proof. apply list_elem_of_here. Qed.

Lemma debug_declared : "debug" ∈ model_fields.
Proof. apply list_elem_of_further, list_elem_of_here. Qed.

Lemma Settings_init_Ok (kw : gmap string PyVal) (w : World) (r : Settings) :
  Settings_init kw w = Ok r <->
  validate_str (default (PyStr default_app_name) (resolve kw w "app_name")) = Some (app_name r) /\
  validate_bool (default (PyBool default_debug) (resolve kw w "debug")) = Some (debug r) /\
  extra_keys (build_values model_fields kw env_file w) = [].
Proof.
  unfold Settings_init. rewrite model_validate_Ok.
  by rewrite !build_values_declared by auto using app_name_declared, debug_declared.
Qed.

(** The falsy tokens are tried first, and none of them is a truthy
    one. *)
Lemma truthy_as_bool (tok : string) : truthy tok -> str_as_bool tok = Some true.
Proof.
  unfold truthy, str_as_bool. intros Hin.
  repeat (apply elem_of_cons in Hin as [->|Hin]; [reflexivity|]).
  by apply elem_of_nil in Hin.
Qed.

Lemma str_in_elem (s : string) (l : list string) : str_in s l = true <-> s ∈ l.
Proof.
  unfold str_in. induction l as [|x l IH]; simpl.
  - split; [done|]. by intros ?%elem_of_nil.
  - rewrite orb_true_iff, IH, String.eqb_eq, elem_of_cons. done.
Qed.

(** The token table read backwards: what validates to [True] is a
    truthy token, what validates to [False] a falsy one. *)
Lemma str_as_bool_true (tok : string) : str_as_bool tok = Some true -> truthy tok.
Proof.
  unfold str_as_bool, truthy.
  destruct (str_in (lower tok) false_tokens); [done|].
  destruct (str_in (lower tok) true_tokens) eqn:Hin; [|done].
  intros _. by apply str_in_elem in Hin.
Qed.

Lemma str_as_bool_false (tok : string) : str_as_bool tok = Some false -> falsy tok.
Proof.
  unfold str_as_bool, falsy.
  destruct (str_in (lower tok) false_tokens) eqn:Hin.
  - intros _. by apply str_in_elem in Hin.
  - by destruct (str_in (lower tok) true_tokens).
Qed.

Lemma raises_not_Ok {A} (x : Result A) : raises x <-> forall a, x <> Ok a.
Proof. destruct x as [a|errs]; simpl; naive_solver. Qed.

(** Without keyword arguments every value comes from the environment
    and is a string. *)
Lemma resolve_environment (w : World) name (v : PyVal) :
  resolve ∅ w name = Some v -> exists s, v = PyStr s.
Proof.
  unfold resolve. rewrite lookup_empty.
  destruct (env_var w name), (file_var w name); naive_solver.
Qed.

Lemma app_name_always_validates (w : World) :
  exists a, validate_str (default (PyStr default_app_name) (resolve ∅ w "app_name")) = Some a.
Proof.
  destruct (resolve ∅ w "app_name") as [v|] eqn:Hr; simpl; [|by eexists].
  apply resolve_environment in Hr as [s ->]. by eexists.
Qed.

Lemma extra_keys_nil (w : World) :
  extra_keys (build_values model_fields ∅ env_file w) = [] <-> names_only_declared_fields w.
Proof.
  split.
  - intros Hnil key v Hb.
    assert (key ∈ extra_keys (build_values model_fields ∅ env_file w)) as Hin
      by (apply extra_keys_of_environment; eauto).
    rewrite Hnil in Hin. by apply elem_of_nil in Hin.
  - intros Hnone. apply elem_of_nil_inv. intros key Hin.
    apply extra_keys_of_environment in Hin as [v Hb]. by apply (Hnone key v).
Qed.

Lemma names_only_declared_fields_dec (w : World) :
  names_only_declared_fields w \/ exists key v, undeclared_binding w key v.
Proof.
  destruct (extra_keys (build_values model_fields ∅ env_file w)) as [|key keys] eqn:Hk.
  - left. by apply extra_keys_nil.
  - right. assert (key ∈ extra_keys (build_values model_fields ∅ env_file w)) as Hin
      by (rewrite Hk; apply list_elem_of_here).
    apply extra_keys_of_environment in Hin as [v Hb]. eauto.
Qed.

(** The construction the module performs succeeds exactly when the
    value in force for [debug] is acceptable and the file names only
    declared fields. *)
Lemma Settings_new_Ok_iff (w : World) :
  is_Ok (Settings_init ∅ w) <-> debug_acceptable w /\ names_only_declared_fields w.
Proof.
  split.
  - destruct (Settings_init ∅ w) as [r|errs] eqn:Hinit; [intros _|done].
    apply Settings_init_Ok in Hinit as (_ & Hd & Hx). split.
    + intros tok Htok. rewrite Htok in Hd. simpl in Hd. by rewrite Hd.
    + by apply extra_keys_nil.
  - intros [Hd Hx].
    destruct (app_name_always_validates w) as [a Ha].
    assert (exists d, validate_bool (default (PyBool default_debug) (resolve ∅ w "debug")) = Some d)
      as [d Hd'].
    { destruct (resolve ∅ w "debug") as [v|] eqn:Hr; simpl; [|by eexists].
      pose proof Hr as [tok ->]%resolve_environment.
      destruct (Hd tok Hr) as [d Htok]. by exists d. }
    assert (Settings_init ∅ w = Ok (mkSettings a d)) as ->; [|done].
    apply Settings_init_Ok. by rewrite extra_keys_nil.
Qed.

Lemma app_name_errors (w : World) :
  field_errors (validate_field validate_str default_app_name string_type "app_name"
                  (build_values model_fields ∅ env_file w)) = [].
Proof.
  unfold validate_field. rewrite build_values_declared by apply app_name_declared.
  destruct (resolve ∅ w "app_name") as [v|] eqn:Hr; [|done].
  by apply resolve_environment in Hr as [s ->].
Qed.

Lemma debug_errors (w : World) :
  let errs := field_errors (validate_field validate_bool default_debug bool_parsing "debug"
                              (build_values model_fields ∅ env_file w)) in
  Forall (fun e => err_loc e = "debug") errs /\ (debug_acceptable w -> errs = []).
Proof.
  unfold validate_field. rewrite build_values_declared by apply debug_declared.
  destruct (resolve ∅ w "debug") as [v|] eqn:Hr; [|done].
  pose proof Hr as [tok ->]%resolve_environment. simpl.
  destruct (str_as_bool tok) eqn:Htok; simpl; [done|].
  split; [by repeat constructor|].
  intros Hacc. destruct (Hacc tok Hr) as [b Hb]. congruence.
Qed.

Lemma extra_errors (w : World) :
  Forall (fun e => err_type e = extra_forbidden /\ err_loc e ∉ model_fields)
         (mkError extra_forbidden <$> extra_keys (build_values model_fields ∅ env_file w)).
Proof.
  apply Forall_fmap, Forall_forall. by intros key [Hkey _]%elem_of_extra_keys.
Qed.

(** What can be wrong with the environment: never [app_name], and
    apart from [debug] only keys that name no field. *)
Lemma errors_of_environment (w : World) (errs : list ErrorDetails) :
  Settings_init ∅ w = ValidationError errs ->
  Forall (fun e => err_loc e <> "app_name") errs /\
  (debug_acceptable w -> Forall (fun e => err_type e = extra_forbidden) errs).
Proof.
  intros Hinit. apply model_validate_errors in Hinit as ->.
  rewrite app_name_errors. cbn [app].
  destruct (debug_errors w) as [Hloc Hnil]. split.
  - apply Forall_app. split.
    + eapply Forall_impl; [exact Hloc|]. by intros e ->.
    + eapply Forall_impl; [apply extra_errors|].
      intros e [_ He] Heq. apply He. rewrite Heq. apply app_name_declared.
  - intros Hacc. rewrite (Hnil Hacc). cbn [app].
    eapply Forall_impl; [apply extra_errors|]. by intros e [He _].
Qed.

(** Validation of what the environment supplies fails exactly when
    the value in force for [debug] is no boolean token or the file binds
    an undeclared key to a non-empty value. *)
Lemma raises_iff (w : World) :
  raises (Settings_init ∅ w) <->
    (exists tok, resolve ∅ w "debug" = Some (PyStr tok) /\ not_a_bool tok) \/
    (exists key v, undeclared_binding w key v).
Proof.
  pose proof (Settings_new_Ok_iff w) as Hok. split.
  - intros Hraise.
    destruct (names_only_declared_fields_dec w) as [Hnames|Hextra]; [|by right].
    left. destruct (resolve ∅ w "debug") as [v|] eqn:Hr.
    + pose proof Hr as [tok ->]%resolve_environment.
      destruct (str_as_bool tok) as [b|] eqn:Htok; [|by exists tok].
      exfalso. destruct (Settings_init ∅ w); [done|]. apply Hok. split; [|done].
      intros tok' Htok'. rewrite Hr in Htok'. injection Htok' as <-. by rewrite Htok.
    + exfalso. destruct (Settings_init ∅ w); [done|]. apply Hok. split; [|done].
      intros tok' Htok'. by rewrite Hr in Htok'.
  - intros Hbad. destruct (Settings_init ∅ w) as [r|errs]; [|done].
    destruct Hok as [[Hacc Hnames] _]; [done|].
    destruct Hbad as [(tok & Hr & Htok)|(key & v & Hb)].
    + destruct (Hacc tok Hr) as [b Hb]. unfold not_a_bool in Htok. congruence.
    + by apply (Hnames key v).
Qed.


End SettingsProperties.

(** ** Worked examples *)

Section WorkedExamples.
Import Python Pydantic PydanticSettings Config Resolution Examples FastAPI MainExamples.

Example construct_busy :
  Settings_init ∅ busy_world = Ok {| app_name := "from env"; debug := true |}.
Proof. reflexivity. Qed.

Example construct_from_file :
  Settings_init ∅ file_world = Ok {| app_name := "from file"; debug := false |}.
Proof. reflexivity. Qed.

Example construct_extra_key :
  Settings_init ∅ extra_key_world = ValidationError [mkError extra_forbidden "foo"].
Proof. reflexivity. Qed.

Example construct_bad_debug :
  Settings_init ∅ (mkWorld [("DEBUG", "maybe")] ∅) =
  ValidationError [mkError bool_parsing "debug"].
Proof. reflexivity. Qed.

Example construct_bad_override :
  Settings_init {[ "app_name" := PyBool true ]} bare_world =
  ValidationError [mkError string_type "app_name"].
Proof. reflexivity. Qed.

Example last_case_variant_wins :
  env_var (mkWorld [("DEBUG", "true"); ("debug", "0")] ∅) "debug" = Some "0".
Proof. reflexivity. Qed.

Example post_root_not_allowed :
  (handle _ sample_app (mkRequest "POST" "/" "" [] "") sample_process).1 =
  mkResponse 405 (detail "Method Not Allowed").
Proof. reflexivity. Qed.

Example get_health :
  (handle _ sample_app (mkRequest "GET" "/health" "" [] "") sample_process).1 =
  mkResponse 200 (JObj [("status", JStr "healthy")]).
Proof. reflexivity. Qed.

Example get_unknown :
  (handle _ sample_app (mkRequest "GET" "/nothing" "" [] "") sample_process).1 =
  mkResponse 404 (detail "Not Found").
Proof. reflexivity. Qed.

End WorkedExamples.

(** ** Claims about app/config.py *)

Section SettingsClaims.
Import Python Pydantic PydanticSettings Config Resolution Examples Observations Startup.

(** C2. With no environment file and no environment variable whose
    name, case ignored, is that of a field, [Settings()] returns the
    record with [app_name == "My FastAPI App"] and [debug == False]. *)
Theorem settings_defaults (w : World) :
  files w !! env_file = None ->
  Forall (fun kv => lower kv.1 ∉ model_fields) (environ w) ->
  Settings_init ∅ w = Ok {| app_name := "My FastAPI App"; debug := false |}.
Proof.
  intros Hfile Henv.
  assert (forall name, name ∈ model_fields -> resolve ∅ w name = None) as Hnone.
  { intros name Hname. unfold resolve, env_var, file_var.
    rewrite lookup_empty, Hfile, last_binding_None; [done|].
    eapply Forall_impl; [exact Henv|]. intros kv Hkv Heq. apply Hkv.
    rewrite Heq, <-lower_model_fields. by apply (list_elem_of_fmap_2 env_name). }
  apply Settings_init_Ok.
  rewrite !Hnone by auto using app_name_declared, debug_declared.
  repeat split. apply extra_keys_nil.
  intros key v (bindings & Hb & _). congruence.
Qed.

Lemma settings_defaults_witness :
  Settings_init ∅ bare_world = Ok {| app_name := "My FastAPI App"; debug := false |}.
Proof.
  apply (settings_defaults bare_world).
  - reflexivity.
  - repeat constructor; simpl; intros Hin;
      repeat (apply elem_of_cons in Hin as [Hin|Hin]; [discriminate|]);
      by apply elem_of_nil in Hin.
Defined.

(** C3, as stated, fails in both directions.  A [.env] file with a key
    that names no field makes the construction fail although no value
    at all is supplied for a declared field; and a value in the file
    that cannot be coerced does no harm when the environment variable
    takes precedence over it. *)
Lemma undeclared_key_failure :
  (raises (Settings_init ∅ extra_key_world) /\
   forall name, name ∈ model_fields ->
     env_var extra_key_world name = None /\ file_var extra_key_world name = None) /\
  (file_var shadowed_world "debug" = Some "maybe" /\ not_a_bool "maybe" /\
   Settings_init ∅ shadowed_world = Ok {| app_name := "My FastAPI App"; debug := true |}).
Proof.
  split; split.
  - by vm_compute.
  - intros name Hname.
    repeat (apply elem_of_cons in Hname as [->|Hname]; [by vm_compute|]).
    by apply elem_of_nil in Hname.
  - by vm_compute.
  - split; by vm_compute.
Qed.

(** C3, amended.  For a [.env] file whose keys are written in ASCII,
    [Settings()] fails exactly when the file exists and cannot be read
    or decoded, or the value that takes precedence for [debug] among
    the environment sources cannot be coerced to [bool], or the file
    binds a key that names no declared field to a non-empty value.  The
    singleton is built when the module is loaded, so such a failure is
    fatal at the start of a process that imports the module, whatever
    the importer goes on to do. *)
Theorem settings_failure_modes (h : Host) :
  ascii_keys h ->
  (fails (construct h) <->
     host_env_file h = Unreadable \/
     exists w, visible_world h = Some w /\
       ((exists tok, resolve ∅ w "debug" = Some (PyStr tok) /\ not_a_bool tok) \/
        (exists key v, undeclared_binding w key v))) /\
  (forall (A : Type) (importer : Module_ -> A),
     fails (start h importer) <-> fails (construct h)).
Proof.
  intros _. split.
  - assert (forall w, visible_world h = Some w ->
              (fails (construct h) <-> raises (Settings_init ∅ w))) as Hseen.
    { intros w Hw. unfold construct. rewrite Hw. by destruct (Settings_init ∅ w). }
    destruct (visible_world h) as [w|] eqn:Hw.
    + rewrite (Hseen w eq_refl), raises_iff. split.
      * intros Hbad. right. by exists w.
      * intros [Hun|(w' & [= <-] & Hbad)]; [|done].
        unfold visible_world in Hw. by rewrite Hun in Hw.
    + split; [|unfold construct; by rewrite Hw].
      intros _. left. unfold visible_world in Hw. by destruct (host_env_file h).
  - intros A importer. unfold start, import_config. by destruct (construct h).
Qed.

Lemma settings_failure_modes_witness :
  ascii_keys (mkHost [("DEBUG", "true")] (Parsed [("FOO", Some "bar")])) /\
  fails (construct (mkHost [("DEBUG", "true")] (Parsed [("FOO", Some "bar")]))) /\
  fails (start (mkHost [("DEBUG", "true")] (Parsed [("FOO", Some "bar")])) settings).
Proof.
  assert (ascii_keys (mkHost [("DEBUG", "true")] (Parsed [("FOO", Some "bar")]))) as Hascii
    by (repeat constructor).
  destruct (settings_failure_modes _ Hascii) as [[_ Hfails] Hstart].
  assert (fails (construct (mkHost [("DEBUG", "true")] (Parsed [("FOO", Some "bar")])))) as Hf.
  { apply Hfails. right. eexists. split; [reflexivity|]. right.
    exists "foo", "bar", [("FOO", Some "bar")]. repeat split; [done|].
    intros Hin. repeat (apply elem_of_cons in Hin as [?|Hin]; [done|]).
    by apply elem_of_nil in Hin. }
  split; [exact Hascii|]. split; [exact Hf|]. by apply Hstart.
Defined.

(** C4. When the environment variable mapped to [debug] holds a truthy
    token, every record [Settings()] returns has [debug == True]; the
    construction does return one whenever the [.env] file names only
    declared fields, and when it fails no error is about [debug]. *)
Theorem debug_env_truthy (w : World) (tok : string) :
  env_var w "debug" = Some tok -> truthy tok ->
  (forall r, Settings_init ∅ w = Ok r -> debug r = true) /\
  (names_only_declared_fields w -> exists r, Settings_init ∅ w = Ok r /\ debug r = true) /\
  (forall errs, Settings_init ∅ w = ValidationError errs ->
     Forall (fun e => err_type e = extra_forbidden) errs).
Proof.
  intros Henv Htruthy.
  assert (resolve ∅ w "debug" = Some (PyStr tok)) as Hr.
  { unfold resolve. by rewrite lookup_empty, Henv. }
  assert (debug_acceptable w) as Hacc.
  { intros tok' Htok'. rewrite Hr in Htok'. injection Htok' as <-.
    by rewrite (truthy_as_bool tok). }
  assert (forall r, Settings_init ∅ w = Ok r -> debug r = true) as Htrue.
  { intros r (_ & Hd & _)%Settings_init_Ok. rewrite Hr in Hd. simpl in Hd.
    apply truthy_as_bool in Htruthy. congruence. }
  split; [done|]. split.
  - intros Hnames. destruct (Settings_init ∅ w) as [r|errs] eqn:Hinit.
    + exists r. auto.
    + exfalso. assert (is_Ok (Settings_init ∅ w)) as Hok by by apply Settings_new_Ok_iff.
      by rewrite Hinit in Hok.
  - intros errs Hinit. by apply errors_of_environment in Hinit as [_ Hex]; auto.
Qed.

Lemma debug_env_truthy_witness :
  env_var busy_world "debug" = Some "YES" /\ truthy "YES" /\
  forall r, Settings_init ∅ busy_world = Ok r -> debug r = true.
Proof.
  assert (truthy "YES") as Hyes by (apply (bool_decide_unpack _); reflexivity).
  split; [reflexivity|]. split; [exact Hyes|].
  apply (debug_env_truthy busy_world "YES"); [reflexivity|exact Hyes].
Defined.

(** C6. For keyword arguments that name declared fields, every record
    a construction returns holds, in each field, the value chosen by the
    order of precedence: the keyword argument if there is one, else the
    environment variable, else the binding of the environment file,
    else the default.  A chosen string is taken as it is for [app_name]
    and read as a boolean token for [debug]; a chosen [bool] is taken as
    it is for [debug]. *)
Theorem settings_precedence (kw : gmap string PyVal) (w : World) (r : Settings) :
  (forall key, is_Some (kw !! key) -> key ∈ model_fields) ->
  Settings_init kw w = Ok r ->
  match resolve kw w "app_name" with
  | Some (PyStr s) => app_name r = s
  | Some (PyBool _) => False
  | None => app_name r = "My FastAPI App"
  end /\
  match resolve kw w "debug" with
  | Some (PyBool b) => debug r = b
  | Some (PyStr tok) => (truthy tok /\ debug r = true) \/ (falsy tok /\ debug r = false)
  | None => debug r = false
  end.
Proof.
  intros _ (Ha & Hd & _)%Settings_init_Ok.
  unfold default_app_name in Ha. unfold default_debug in Hd. split.
  - destruct (resolve kw w "app_name") as [[s|b]|]; simpl in Ha; congruence.
  - destruct (resolve kw w "debug") as [[tok|b]|]; simpl in Hd; [|congruence..].
    destruct (debug r).
    + left. split; [|done]. by apply str_as_bool_true.
    + right. split; [|done]. by apply str_as_bool_false.
Qed.

Lemma settings_precedence_witness :
  (resolve {[ "debug" := PyBool false ]} busy_world "app_name" = Some (PyStr "from env") /\
   resolve {[ "debug" := PyBool false ]} busy_world "debug" = Some (PyBool false)) /\
  exists r, Settings_init {[ "debug" := PyBool false ]} busy_world = Ok r /\
            app_name r = "from env" /\ debug r = false.
Proof.
  split; [split; reflexivity|].
  exists {| app_name := "from env"; debug := false |}. split; [reflexivity|].
  assert (forall key, is_Some (({[ "debug" := PyBool false ]} : gmap string PyVal) !! key) ->
                      key ∈ model_fields) as Hkeys.
  { intros key [v Hv]. destruct (decide (key = "debug")) as [->|Hne].
    - apply list_elem_of_further, list_elem_of_here.
    - by rewrite lookup_singleton_ne in Hv. }
  exact (settings_precedence {[ "debug" := PyBool false ]} busy_world
           {| app_name := "from env"; debug := false |} Hkeys eq_refl).
Defined.

(** C10. Whatever string the environment supplies for [app_name]
    (through the variable, or through the file when the variable is not
    set), the field never fails to validate: every record returned has
    that string as [app_name], no error is ever located at [app_name],
    and the construction succeeds as soon as the rest of the environment
    is acceptable. *)
Theorem app_name_any_string (w : World) (s : string) :
  env_var w "app_name" = Some s \/
    (env_var w "app_name" = None /\ file_var w "app_name" = Some s) ->
  (forall r, Settings_init ∅ w = Ok r -> app_name r = s) /\
  (forall errs, Settings_init ∅ w = ValidationError errs ->
     Forall (fun e => err_loc e <> "app_name") errs) /\
  (debug_acceptable w -> names_only_declared_fields w ->
     exists r, Settings_init ∅ w = Ok r /\ app_name r = s).
Proof.
  intros Hsup.
  assert (resolve ∅ w "app_name" = Some (PyStr s)) as Hr.
  { unfold resolve. rewrite lookup_empty.
    destruct Hsup as [->|[-> ->]]; done. }
  assert (forall r, Settings_init ∅ w = Ok r -> app_name r = s) as Hname.
  { intros r (Ha & _)%Settings_init_Ok. rewrite Hr in Ha. simpl in Ha. congruence. }
  split; [done|]. split.
  - intros errs Hinit. by apply errors_of_environment in Hinit as [Hloc _].
  - intros Hacc Hnames. destruct (Settings_init ∅ w) as [r|errs] eqn:Hinit.
    + exists r. auto.
    + exfalso. assert (is_Ok (Settings_init ∅ w)) as Hok by by apply Settings_new_Ok_iff.
      by rewrite Hinit in Hok.
Qed.

Lemma app_name_any_string_witness :
  (env_var file_world "app_name" = None /\ file_var file_world "app_name" = Some "from file") /\
  forall r, Settings_init ∅ file_world = Ok r -> app_name r = "from file".
Proof.
  split; [split; reflexivity|].
  apply (app_name_any_string file_world "from file").
  right. split; reflexivity.
Defined.

(** C7, as stated, fails: the class is not frozen, and an importing
    module that assigns to [settings.debug] changes the value every
    other importer reads. *)
Lemma assignment_changes_settings :
  load bare_world = Ok (mkModule {| app_name := "My FastAPI App"; debug := false |}) /\
  settings (run_op (SetDebug true)
              (mkModule {| app_name := "My FastAPI App"; debug := false |})).2 =
    {| app_name := "My FastAPI App"; debug := true |}.
Proof. split; reflexivity. Qed.

End SettingsClaims.

(** ** Routing *)

Section RoutingFacts.
Import Python FastAPI.
Context {State : Type}.

(** Routes that do not fully match are passed over, whatever partial
    match is pending. *)
Lemma find_route_full (rs rest : list (APIRoute State)) (r : APIRoute State)
    (req : Request) (partial : option (APIRoute State)) :
  Forall (fun r' => matches State r' req <> FULL) rs ->
  matches State r req = FULL ->
  find_route State (rs ++ r :: rest) req partial = Some (FULL, r).
Proof.
  intros Hrs Hr. revert partial.
  induction Hrs as [|r' rs Hr' _ IH]; intros partial; simpl.
  - by rewrite Hr.
  - destruct (matches State r' req); [apply IH..|done].
Qed.

Lemma matches_other_path (r : APIRoute State) (req : Request) :
  route_path State r <> path req -> matches State r req <> FULL.
Proof.
  intros Hne. unfold matches.
  destruct (String.eqb_spec (route_path State r) (path req)); [done|discriminate].
Qed.

(** A prefix the router constructor accepts, unless it is empty, has at
    least two characters: no path under it is the root path. *)
Lemma prefixed_path_not_root (p s : string) :
  valid_prefix p = true -> p <> "" -> String.append p s <> "/".
Proof.
  destruct p as [|c [|c' p']]; [done| |by destruct s].
  unfold valid_prefix, starts_with_slash, ends_with_slash.
  by destruct (Ascii.eqb c "/").
Qed.

Lemma prefixed_router_not_at_root (router : APIRouter State) (method : string) :
  valid_prefix (prefix State router) = true -> prefix State router <> "" ->
  ~ serves State router method "/".
Proof.
  intros Hvalid Hne (r & _ & Hpath & _). by eapply prefixed_path_not_root.
Qed.

End RoutingFacts.

(** ** Claims about app/main.py *)

Section MainClaims.
Import Python FastAPI Main MainExamples.
Context {State : Type}.
Variable docs_endpoint : string -> Endpoint State.
Variable health_router : APIRouter State.

(** A [GET /] request goes to [root], which returns the welcome body
    and the state it was given. *)
Lemma handle_root (req : Request) (st : State) :
  method req = "GET" -> path req = "/" ->
  ~ serves State health_router "GET" "/" ->
  handle State (app State docs_endpoint health_router) req st = (mkResponse 200 welcome, st).
Proof.
  intros Hmethod Hpath Hhealth. unfold handle, app, get, include_router, new_app.
  cbn [routes title description version].
  rewrite (find_route_full _ [] (mkRoute State "/" ["GET"] (root State) 200)).
  - done.
  - apply Forall_app. split.
    + repeat constructor; apply matches_other_path; by rewrite Hpath.
    + apply Forall_fmap, Forall_forall. intros r Hr. unfold matches, add_prefix. simpl.
      destruct (String.eqb_spec (String.append (prefix State health_router) (route_path State r))
                  (path req)) as [Heq|]; [|done].
      destruct (str_in (method req) (route_methods State r)) eqn:Hin; [|done].
      exfalso. apply Hhealth. exists r. by rewrite <-Hmethod, <-Hpath.
  - unfold matches. simpl. by rewrite Hpath, Hmethod.
Qed.

(** C1. Every [GET /] request is answered with status 200 and exactly
    the three-field body of [root], whatever the process state, and so
    whatever the settings singleton holds. *)
Theorem root_response (req : Request) (st : State) :
  method req = "GET" -> path req = "/" ->
  ~ serves State health_router "GET" "/" ->
  (handle State (app State docs_endpoint health_router) req st).1 =
    mkResponse 200 (JObj [("message", JStr "Welcome to FastAPI");
                          ("docs", JStr "/docs");
                          ("health", JStr "/health")]).
Proof. intros Hm Hp Hh. by rewrite handle_root. Qed.

(** C8. [root] takes nothing from the request and changes nothing: the
    process state, where the application object, its routes and the
    settings singleton live, is after a [GET /] what it was before. *)
Theorem root_no_side_effects (req : Request) (st : State) :
  method req = "GET" -> path req = "/" ->
  ~ serves State health_router "GET" "/" ->
  (root State st).2 = st /\
  (handle State (app State docs_endpoint health_router) req st).2 = st.
Proof. intros Hm Hp Hh. by rewrite handle_root. Qed.

(** C9. The title given to the application and the default of the
    [app_name] field are the same string. *)
Theorem title_is_default_app_name :
  title State (app State docs_endpoint health_router) = Config.default_app_name.
Proof. reflexivity. Qed.

End MainClaims.

Section SingletonInScope.
Import Python FastAPI Main Observations.
Context {State : Type}.
Variable docs_endpoint : string -> Endpoint State.
Variable health_router : APIRouter State.

(** C7, amended.  After module load no code of this scope changes the
    singleton: wherever it lives in the process state, serving any
    sequence of [GET /] requests, which is all [root] is registered for,
    leaves [app_name] and [debug] as they were built.  (An assignment by
    an importing module does change them: the class is not frozen.) *)
Theorem settings_untouched_in_scope (settings_of : State -> Config.Settings)
    (reqs : list Request) (st : State) :
  Forall (fun req => method req = "GET" /\ path req = "/") reqs ->
  ~ serves State health_router "GET" "/" ->
  settings_of (serve_all (app State docs_endpoint health_router) reqs st) = settings_of st.
Proof.
  intros Hreqs Hhealth. unfold serve_all. f_equal.
  induction Hreqs as [|req reqs [Hmethod Hpath] _ IH]; [done|].
  cbn [foldl]. by rewrite handle_root.
Qed.

End SingletonInScope.

Section MainWitnesses.
Import Python FastAPI Main MainExamples Observations.

Lemma root_response_witness :
  (handle _ sample_app get_root sample_process).1 = mkResponse 200 welcome.
Proof.
  apply (root_response sample_docs_endpoint sample_health_router get_root sample_process).
  - reflexivity.
  - reflexivity.
  - by apply prefixed_router_not_at_root.
Defined.

Lemma root_no_side_effects_witness :
  (root _ sample_process).2 = sample_process /\
  (handle _ sample_app get_root sample_process).2 = sample_process.
Proof.
  apply (root_no_side_effects sample_docs_endpoint sample_health_router get_root sample_process).
  - reflexivity.
  - reflexivity.
  - by apply prefixed_router_not_at_root.
Defined.

Lemma settings_untouched_in_scope_witness :
  Config.settings (serve_all sample_app [get_root; get_root; get_root] sample_process) =
  Config.settings sample_process.
Proof.
  apply (settings_untouched_in_scope sample_docs_endpoint sample_health_router
           Config.settings [get_root; get_root; get_root] sample_process).
  - by repeat constructor.
  - by apply prefixed_router_not_at_root.
Defined.

End MainWitnesses.

(** * Further properties *)

(** ** Environment handling of the Settings class *)

Section EnvironmentFacts.
Import Python Pydantic PydanticSettings Config Resolution Observations.

Lemma falsy_as_bool (tok : string) : falsy tok -> str_as_bool tok = Some false.
Proof.
  unfold falsy, str_as_bool. intros Hin.
  repeat (apply elem_of_cons in Hin as [->|Hin]; [reflexivity|]).
  by apply elem_of_nil in Hin.
Qed.

(** Dropping bindings that cannot answer for [name] does not change
    the answer. *)
Lemma last_binding_filter {V} (P : string * V -> Prop) `{!forall kv, Decision (P kv)}
    (bindings : list (string * V)) name :
  (forall kv, lower kv.1 = name -> P kv) ->
  last_binding name (filter P bindings) = last_binding name bindings.
Proof.
  intros HP. induction bindings as [|kv rest IH]; [done|].
  rewrite filter_cons. cbn [last_binding]. destruct (decide (P kv)) as [Hkv|Hkv].
  - cbn [last_binding]. by rewrite IH.
  - rewrite IH. destruct (last_binding name rest); [done|].
    rewrite decide_False; [done|]. intros Heq. by apply Hkv, HP.
Qed.

Lemma env_settings_eq (w1 w2 : World) :
  (forall name, name ∈ model_fields -> env_var w1 name = env_var w2 name) ->
  env_settings model_fields w1 = env_settings model_fields w2.
Proof.
  intros Heq. apply map_eq. intros name. rewrite !env_settings_lookup.
  case_decide; [|done]. by rewrite Heq.
Qed.

Lemma Settings_init_eq (kw : gmap string PyVal) (w1 w2 : World) :
  env_settings model_fields w1 = env_settings model_fields w2 ->
  dotenv_settings model_fields env_file w1 = dotenv_settings model_fields env_file w2 ->
  Settings_init kw w1 = Settings_init kw w2.
Proof. intros Henv Hfile. unfold Settings_init, build_values. by rewrite Henv, Hfile. Qed.

Lemma lower_declared (name : string) : name ∈ model_fields -> lower name = name.
Proof.
  intros Hin. repeat (apply elem_of_cons in Hin as [->|Hin]; [reflexivity|]).
  by apply elem_of_nil in Hin.
Qed.

(** With keyword arguments that name only declared fields, the only
    undeclared keys come from the environment file. *)
Lemma extra_keys_declared_kwargs (kw : gmap string PyVal) (w : World) :
  (forall key, key ∉ model_fields -> kw !! key = None) ->
  names_only_declared_fields w ->
  extra_keys (build_values model_fields kw env_file w) = [].
Proof.
  intros Hkw Hnames. apply elem_of_nil_inv. intros key [Hkey [x Hx]]%elem_of_extra_keys.
  rewrite build_values_lookup, Hkw, env_settings_lookup, decide_False in Hx by done.
  assert (build_values model_fields ∅ env_file w !! key = Some x) as Hx'.
  { rewrite build_values_undeclared by done.
    by destruct (dotenv_settings model_fields env_file w !! key). }
  assert (key ∈ extra_keys (build_values model_fields ∅ env_file w)) as Hin
    by (apply elem_of_extra_keys; eauto).
  apply extra_keys_of_environment in Hin as [v Hv]. by apply (Hnames key v).
Qed.

End EnvironmentFacts.

Section EnvironmentProperties.
Import Python Pydantic PydanticSettings Config Resolution Observations Examples.

(** X1. When the environment variable mapped to [debug] holds a falsy
    token, every record [Settings()] returns has [debug == False], and
    one is returned whenever the [.env] file names only declared
    fields. *)
Theorem debug_env_falsy (w : World) (tok : string) :
  env_var w "debug" = Some tok -> falsy tok ->
  (forall r, Settings_init ∅ w = Ok r -> debug r = false) /\
  (names_only_declared_fields w -> exists r, Settings_init ∅ w = Ok r /\ debug r = false).
Proof.
  intros Henv Hfalsy%falsy_as_bool.
  assert (resolve ∅ w "debug" = Some (PyStr tok)) as Hr.
  { unfold resolve. by rewrite lookup_empty, Henv. }
  assert (forall r, Settings_init ∅ w = Ok r -> debug r = false) as Hfalse.
  { intros r (_ & Hd & _)%Settings_init_Ok. rewrite Hr in Hd. simpl in Hd. congruence. }
  split; [done|]. intros Hnames.
  assert (is_Ok (Settings_init ∅ w)) as Hok.
  { apply Settings_new_Ok_iff. split; [|done].
    intros tok' Htok'. rewrite Hr in Htok'. injection Htok' as <-. by rewrite Hfalsy. }
  destruct (Settings_init ∅ w) as [r|errs]; [|done]. exists r. auto.
Qed.

Lemma debug_env_falsy_witness :
  env_var (mkWorld [("DEBUG", "Off")] ∅) "debug" = Some "Off" /\
  exists r, Settings_init ∅ (mkWorld [("DEBUG", "Off")] ∅) = Ok r /\ debug r = false.
Proof.
  split; [reflexivity|].
  apply (debug_env_falsy (mkWorld [("DEBUG", "Off")] ∅) "Off").
  - reflexivity.
  - apply (bool_decide_unpack _). reflexivity.
  - apply extra_keys_nil. reflexivity.
Defined.

(** X2. When the environment variable mapped to [debug] holds a string
    that is not a boolean token, [Settings()] raises, whatever the
    parsed [.env] file says, with an error located at [debug]; loading
    the module fails with it. *)
Theorem debug_env_invalid (w : World) (tok : string) :
  env_var w "debug" = Some tok -> str_as_bool tok = None ->
  (exists errs, Settings_init ∅ w = ValidationError errs /\
                exists e, e ∈ errs /\ err_loc e = "debug") /\
  raises (load w).
Proof.
  intros Henv Htok.
  assert (exists e, validate_field validate_bool default_debug bool_parsing "debug"
                      (build_values model_fields ∅ env_file w) = inr e /\
                    err_loc e = "debug") as (e & Hd & Hloc).
  { unfold validate_field. rewrite build_values_declared by apply debug_declared.
    unfold resolve. rewrite lookup_empty, Henv. simpl. rewrite Htok. by eexists. }
  assert (exists errs, Settings_init ∅ w = ValidationError errs /\ e ∈ errs)
    as (errs & Herrs & Hin).
  { unfold Settings_init, model_validate. rewrite Hd.
    destruct (validate_field validate_str _ _ _ _); eexists; (split; [reflexivity|]);
      cbn [field_errors]; rewrite !elem_of_app, !elem_of_cons; auto. }
  split; [eauto|]. unfold load. by rewrite Herrs.
Qed.

Lemma debug_env_invalid_witness :
  raises (load (mkWorld [("debug", "2")] {[ ".env" := [("DEBUG", Some "true")] ]})).
Proof.
  apply (debug_env_invalid (mkWorld [("debug", "2")] {[ ".env" := [("DEBUG", Some "true")] ]}) "2");
    reflexivity.
Defined.

(** X3. Without a [.env] file, environment variables whose name, case
    ignored, is not that of a declared field never influence
    [Settings()]: removing them from the environment gives the same
    record or the same errors. *)
Theorem irrelevant_variables_ignored (w : World) :
  files w !! env_file = None ->
  Settings_init ∅ (mkWorld (filter relevant (environ w)) (files w)) = Settings_init ∅ w.
Proof.
  intros _. apply Settings_init_eq; [|done].
  apply env_settings_eq. intros name Hname. unfold env_var. simpl.
  apply last_binding_filter. intros kv Hkv. unfold relevant.
  by rewrite Hkv, lower_declared.
Qed.

Lemma irrelevant_variables_ignored_witness :
  Settings_init ∅ (mkWorld [("Debug", "on")] ∅) =
  Settings_init ∅ (mkWorld [("PATH", "/usr/bin"); ("Debug", "on"); ("DEBUGGER", "1")] ∅).
Proof.
  exact (irrelevant_variables_ignored
           (mkWorld [("PATH", "/usr/bin"); ("Debug", "on"); ("DEBUGGER", "1")] ∅) eq_refl).
Defined.

(** X5. Keyword arguments for both fields decide the record alone: with
    a [str] for [app_name] and a [bool] for [debug], the construction
    returns exactly these values whatever the environment variables
    hold, provided the [.env] file names only declared fields. *)
Theorem explicit_arguments_decide (w : World) (a : string) (b : bool) :
  names_only_declared_fields w ->
  Settings_init {[ "app_name" := PyStr a; "debug" := PyBool b ]} w =
  Ok {| app_name := a; debug := b |}.
Proof.
  intros Hnames. apply Settings_init_Ok. unfold resolve.
  assert (forall key,
            ({[ "app_name" := PyStr a; "debug" := PyBool b ]} : gmap string PyVal) !! key =
            if decide (key = "app_name") then Some (PyStr a)
            else if decide (key = "debug") then Some (PyBool b) else None) as Hkw.
  { intros key. repeat case_decide; by simplify_map_eq. }
  rewrite !Hkw. repeat split. apply extra_keys_declared_kwargs; [|done].
  intros key Hkey. rewrite Hkw.
  rewrite !decide_False; [done|..]; intros ->; apply Hkey;
    auto using app_name_declared, debug_declared.
Qed.

Lemma explicit_arguments_decide_witness :
  Settings_init {[ "app_name" := PyStr "cli"; "debug" := PyBool true ]}
                (mkWorld [("DEBUG", "maybe"); ("APP_NAME", "from env")] ∅) =
  Ok {| app_name := "cli"; debug := true |}.
Proof.
  apply (explicit_arguments_decide (mkWorld [("DEBUG", "maybe"); ("APP_NAME", "from env")] ∅)).
  apply extra_keys_nil. reflexivity.
Defined.

(** X11. An [.env] file that exists but binds nothing is the same as
    no [.env] file at all. *)
Theorem empty_env_file_is_no_file (kw : gmap string PyVal) (w : World) :
  files w !! env_file = Some [] ->
  Settings_init kw w = Settings_init kw (mkWorld (environ w) (delete env_file (files w))).
Proof.
  intros Hfile. apply Settings_init_eq; [done|].
  unfold dotenv_settings. simpl. rewrite Hfile, lookup_delete_eq.
  apply map_eq. intros name.
  rewrite lookup_union, fields_data_lookup, dotenv_extra_lookup, lookup_empty.
  unfold parse_env_vars. simpl. rewrite !lookup_empty. by repeat case_decide.
Qed.

Lemma empty_env_file_is_no_file_witness :
  Settings_init ∅ (mkWorld [("DEBUG", "1")] {[ ".env" := [] ]}) =
  Settings_init ∅ (mkWorld [("DEBUG", "1")] (delete ".env" {[ ".env" := [] ]})).
Proof.
  exact (empty_env_file_is_no_file ∅ (mkWorld [("DEBUG", "1")] {[ ".env" := [] ]}) eq_refl).
Defined.

End EnvironmentProperties.

(** ** Dispatch over the routes of the application *)

Section DispatchFacts.
Import Python FastAPI Observations.
Context {State : Type}.

Lemma matches_NONE (r : APIRoute State) (req : Request) :
  route_path State r <> path req -> matches State r req = NONE.
Proof.
  intros Hne. unfold matches.
  by destruct (String.eqb_spec (route_path State r) (path req)).
Qed.

(** Routes whose path does not match leave the pending partial match
    as the only candidate. *)
Lemma find_route_none (rs : list (APIRoute State)) (req : Request)
    (partial : option (APIRoute State)) :
  Forall (fun r => matches State r req = NONE) rs ->
  find_route State rs req partial = (fun r => (PARTIAL, r)) <$> partial.
Proof.
  intros Hrs. revert partial. induction Hrs as [|r rs Hr _ IH]; intros partial; simpl; [done|].
  by rewrite Hr.
Qed.

(** Without a full match, a route whose path matched answers for the
    request. *)
Lemma find_route_partial (rs : list (APIRoute State)) (req : Request)
    (partial : option (APIRoute State)) :
  Forall (fun r => matches State r req <> FULL) rs ->
  is_Some partial \/ Exists (fun r => matches State r req = PARTIAL) rs ->
  exists r, find_route State rs req partial = Some (PARTIAL, r).
Proof.
  intros Hrs. revert partial.
  induction Hrs as [|r rs Hr _ IH]; intros partial Hsome; simpl.
  - destruct Hsome as [[p ->]|Hex]; [by eexists|]. by apply Exists_nil in Hex.
  - destruct (matches State r req) eqn:Hm; [| |done].
    + apply IH. destruct Hsome as [?|Hex]; [by left|].
      apply Exists_cons in Hex as [?|?]; [congruence|by right].
    + apply IH. left. by destruct partial.
Qed.

Lemma first_full_match (rs : list (APIRoute State)) (req : Request) :
  Exists (fun r => matches State r req = FULL) rs ->
  exists before r after,
    rs = (before ++ r :: after)%list /\
    Forall (fun r' => matches State r' req <> FULL) before /\
    matches State r req = FULL.
Proof.
  induction rs as [|r rs IH]; intros Hex; [by apply Exists_nil in Hex|].
  destruct (decide (matches State r req = FULL)) as [Hr|Hr].
  - by exists [], r, rs.
  - apply Exists_cons in Hex as [?|Hex]; [done|].
    destruct (IH Hex) as (before & r' & after & -> & Hbefore & Hr').
    exists (r :: before), r', after. by repeat split; [constructor|].
Qed.

Lemma handle_full (app : FastAPI State) (req : Request) (st : State)
    (before after : list (APIRoute State)) (r : APIRoute State) :
  routes State app = (before ++ r :: after)%list ->
  Forall (fun r' => matches State r' req <> FULL) before ->
  matches State r req = FULL ->
  handle State app req st = run_route r st.
Proof.
  intros Hroutes Hbefore Hr. unfold handle, run_route.
  rewrite Hroutes, (find_route_full before after r) by done.
  by destruct (route_endpoint State r st).
Qed.

Lemma existsb_route_path (rs : list (APIRoute State)) (p : string) :
  existsb (fun r => String.eqb (route_path State r) p) rs = true <->
  p ∈ route_path State <$> rs.
Proof.
  induction rs as [|r rs IH]; simpl.
  - split; [done|]. by intros ?%elem_of_nil.
  - rewrite orb_true_iff, IH, String.eqb_eq, elem_of_cons.
    split; (intros [Heq|Hin]; [by left|by right]).
Qed.

End DispatchFacts.

Section DispatchProperties.
Import Python FastAPI Main Observations.
Context {State : Type}.
Variable docs_endpoint : string -> Endpoint State.
Variable health_router : APIRouter State.

(** The route table the module body builds: the documentation routes,
    the routes of the health router under its prefix, then [root]. *)
Lemma app_routes :
  routes State (app State docs_endpoint health_router) =
  ((docs_route State docs_endpoint <$> docs_paths) ++
   (add_prefix State (prefix State health_router) <$> router_routes State health_router) ++
   [mkRoute State "/" ["GET"] (root State) 200])%list.
Proof. reflexivity. Qed.

Lemma app_route_paths :
  route_paths (app State docs_endpoint health_router) =
  (docs_paths ++
   ((fun r => String.append (prefix State health_router) (route_path State r)) <$>
      router_routes State health_router) ++ ["/"])%list.
Proof.
  unfold route_paths. rewrite app_routes, !fmap_app, <-!list_fmap_compose. done.
Qed.

Lemma docs_routes_pass (req : Request) :
  path req ∉ docs_paths ->
  Forall (fun r => matches State r req <> FULL) (docs_route State docs_endpoint <$> docs_paths).
Proof.
  intros Hpath. apply Forall_fmap, Forall_forall. intros p Hp.
  apply matches_other_path. simpl. intros Heq. apply Hpath. by rewrite <-Heq.
Qed.

(** X6. A route of the health router answers a request it fully
    matches, with its own status and endpoint, when no earlier route of
    the router matches and the path is not one of the documentation
    paths; [root], registered last, is not consulted. *)
Theorem health_route_reached (req : Request) (st : State)
    (before after : list (APIRoute State)) (r : APIRoute State) :
  router_routes State health_router = (before ++ r :: after)%list ->
  Forall (fun r' => matches State (add_prefix State (prefix State health_router) r') req <> FULL) before ->
  matches State (add_prefix State (prefix State health_router) r) req = FULL ->
  path req ∉ docs_paths ->
  handle State (app State docs_endpoint health_router) req st = run_route r st.
Proof.
  intros Hrouter Hbefore Hr Hdocs.
  rewrite (handle_full (app State docs_endpoint health_router) req st
             ((docs_route State docs_endpoint <$> docs_paths) ++ (add_prefix State (prefix State health_router) <$> before))
             (((add_prefix State (prefix State health_router) <$> after) ++ [mkRoute State "/" ["GET"] (root State) 200]))
             (add_prefix State (prefix State health_router) r)); [done| | |done].
  - rewrite app_routes, Hrouter, fmap_app, fmap_cons. by rewrite <-!app_assoc.
  - apply Forall_app. split; [by apply docs_routes_pass|]. by apply Forall_fmap.
Qed.

(** X7. The health router is included before [root] is registered: if
    it serves [GET /] itself, a [GET /] request is answered by one of
    its routes and never reaches [root]. *)
Theorem health_router_shadows_root (req : Request) (st : State) :
  method req = "GET" -> path req = "/" ->
  serves State health_router "GET" "/" ->
  exists r, r ∈ router_routes State health_router /\
            String.append (prefix State health_router) (route_path State r) = "/" /\
            handle State (app State docs_endpoint health_router) req st = run_route r st.
Proof.
  intros Hmethod Hpath (r0 & Hin0 & Hpath0 & Hmeth0).
  assert (forall r, matches State (add_prefix State (prefix State health_router) r) req = FULL ->
                    String.append (prefix State health_router) (route_path State r) = "/")
    as Hfull.
  { intros r. unfold matches, add_prefix. simpl. rewrite Hpath.
    by destruct (String.eqb_spec
                   (String.append (prefix State health_router) (route_path State r)) "/"). }
  assert (Exists (fun r => matches State r req = FULL)
            (add_prefix State (prefix State health_router) <$> router_routes State health_router)) as Hex.
  { apply Exists_exists. exists (add_prefix State (prefix State health_router) r0). split.
    - by apply list_elem_of_fmap_2.
    - unfold matches, add_prefix. simpl.
      by rewrite Hpath0, Hpath, String.eqb_refl, Hmethod, Hmeth0. }
  apply first_full_match in Hex as (before & r' & after & Hsplit & Hbefore & Hr').
  assert (r' ∈ add_prefix State (prefix State health_router) <$> router_routes State health_router) as Hin'.
  { rewrite Hsplit. apply elem_of_app. right. apply list_elem_of_here. }
  apply list_elem_of_fmap in Hin' as (r & -> & Hin).
  exists r. split; [done|]. split; [by apply Hfull|].
  rewrite (handle_full (app State docs_endpoint health_router) req st
             ((docs_route State docs_endpoint <$> docs_paths) ++ before)
             (after ++ [mkRoute State "/" ["GET"] (root State) 200])
             (add_prefix State (prefix State health_router) r)); [done| | |done].
  - rewrite app_routes, Hsplit. by rewrite <-!app_assoc.
  - apply Forall_app. split; [|done]. apply docs_routes_pass. rewrite Hpath.
    intros Hin'. repeat (apply elem_of_cons in Hin' as [?|Hin']; [done|]).
    by apply elem_of_nil in Hin'.
Qed.

(** X8. [root] is registered for [GET] only: any other method on [/]
    that the health router does not serve there is answered 405, with
    the process state unchanged. *)
Theorem root_other_methods (req : Request) (st : State) :
  path req = "/" -> method req <> "GET" ->
  ~ serves State health_router (method req) "/" ->
  handle State (app State docs_endpoint health_router) req st = (mkResponse 405 (detail "Method Not Allowed"), st).
Proof.
  intros Hpath Hmethod Hhealth. unfold handle.
  destruct (find_route_partial (routes State (app State docs_endpoint health_router)) req None) as [r ->]; [| |done].
  - rewrite app_routes. apply Forall_app. split; [|apply Forall_app; split].
    + apply docs_routes_pass. rewrite Hpath.
      intros Hin. repeat (apply elem_of_cons in Hin as [?|Hin]; [done|]).
      by apply elem_of_nil in Hin.
    + apply Forall_fmap, Forall_forall. intros r Hr. unfold matches, add_prefix. simpl.
      destruct (String.eqb_spec
                  (String.append (prefix State health_router) (route_path State r)) (path req))
        as [Heq|]; [|done].
      destruct (str_in (method req) (route_methods State r)) eqn:Hin; [|done].
      exfalso. apply Hhealth. exists r. by rewrite <-Hpath.
    + repeat constructor. unfold matches. simpl. rewrite Hpath. simpl.
      destruct (String.eqb_spec (method req) "GET"); [done|]. by simpl.
  - right. rewrite app_routes, !Exists_app. right. right. apply Exists_cons. left.
    unfold matches. simpl. rewrite Hpath. simpl.
    by destruct (String.eqb_spec (method req) "GET").
Qed.

(** X9. The documentation routes come first in the table: a [GET] or
    [HEAD] request for one of their paths is answered by the framework's
    endpoint for that path with status 200, whatever the health router
    registers. *)
Theorem docs_routes_first (req : Request) (st : State) :
  path req ∈ docs_paths -> method req = "GET" \/ method req = "HEAD" ->
  handle State (app State docs_endpoint health_router) req st =
  (mkResponse 200 (docs_endpoint (path req) st).1, (docs_endpoint (path req) st).2).
Proof.
  intros Hpath Hmethod.
  assert (exists before after,
            docs_paths = (before ++ path req :: after)%list /\ path req ∉ before)
    as (before & after & Hsplit & Hbefore).
  { apply list_elem_of_split_l in Hpath as (before & after & -> & ?). eauto. }
  rewrite (handle_full (app State docs_endpoint health_router) req st
             (docs_route State docs_endpoint <$> before)
             ((docs_route State docs_endpoint <$> after) ++
              (add_prefix State (prefix State health_router) <$> router_routes State health_router) ++
              [mkRoute State "/" ["GET"] (root State) 200])
             (docs_route State docs_endpoint (path req))); [done| | |].
  - rewrite app_routes, Hsplit, fmap_app, fmap_cons. by rewrite <-!app_assoc.
  - apply Forall_fmap, Forall_forall. intros p Hp. apply matches_other_path. simpl.
    intros Heq. apply Hbefore. by rewrite <-Heq.
  - unfold matches. simpl. rewrite String.eqb_refl.
    by destruct Hmethod as [-> | ->].
Qed.

(** X10. With a health router whose paths are literal, a request whose
    path has no line feed and is the path of no route never runs an
    endpoint: it is redirected (307) when the path with its trailing
    slash toggled is a registered path, and answered 404 otherwise; the
    process state is unchanged. *)
Theorem unmatched_path (req : Request) (st : State) :
  literal_paths health_router ->
  has_newline (path req) = false ->
  path req ∉ route_paths (app State docs_endpoint health_router) ->
  handle State (app State docs_endpoint health_router) req st =
  (if decide (redirect_path (path req) ∈ route_paths (app State docs_endpoint health_router))
   then mkResponse 307 JNull
   else mkResponse 404 (detail "Not Found"), st).
Proof.
  intros _ _ Hpath.
  assert (find_route State (routes State (app State docs_endpoint health_router)) req None = None)
    as Hnone.
  { rewrite find_route_none; [done|].
    apply Forall_forall. intros r Hr. apply matches_NONE. intros Heq. apply Hpath.
    rewrite <-Heq. unfold route_paths. by apply list_elem_of_fmap_2. }
  assert (String.eqb (path req) "/" = false) as Hroot.
  { apply String.eqb_neq. intros Heq. apply Hpath. rewrite app_route_paths, Heq.
    rewrite !elem_of_app. right. right. apply list_elem_of_here. }
  unfold handle. rewrite Hnone, Hroot. cbn [negb andb].
  pose proof (existsb_route_path (routes State (app State docs_endpoint health_router))
                (redirect_path (path req))) as Hex.
  fold (route_paths (app State docs_endpoint health_router)) in Hex.
  destruct (existsb _ _).
  - rewrite decide_True; [done|]. by apply Hex.
  - rewrite decide_False; [done|]. intros Hin. by apply Hex in Hin.
Qed.

End DispatchProperties.

Section DispatchWitnesses.
Import Python FastAPI Main MainExamples Observations ShadowExample.

Lemma health_route_reached_witness :
  handle _ sample_app (mkRequest "GET" "/health" "" [] "") sample_process =
  (mkResponse 200 (JObj [("status", JStr "healthy")]), sample_process).
Proof.
  apply (health_route_reached sample_docs_endpoint sample_health_router
           (mkRequest "GET" "/health" "" [] "") sample_process
           [] [] (mkRoute _ "" ["GET"] health_check 200)).
  - reflexivity.
  - constructor.
  - reflexivity.
  - simpl. intros Hin. repeat (apply elem_of_cons in Hin as [?|Hin]; [done|]).
    by apply elem_of_nil in Hin.
Defined.

Lemma health_router_shadows_root_witness :
  exists r, r ∈ router_routes _ greedy_router /\
            String.append (prefix _ greedy_router) (route_path _ r) = "/" /\
            handle _ (app _ sample_docs_endpoint greedy_router) get_root sample_process =
            run_route r sample_process.
Proof.
  apply (health_router_shadows_root sample_docs_endpoint greedy_router get_root sample_process).
  - reflexivity.
  - reflexivity.
  - exists (mkRoute _ "/" ["GET"] greedy_endpoint 200).
    split; [apply list_elem_of_here|]. split; reflexivity.
Defined.

Lemma root_other_methods_witness :
  handle _ sample_app (mkRequest "DELETE" "/" "" [] "") sample_process =
  (mkResponse 405 (detail "Method Not Allowed"), sample_process).
Proof.
  apply (root_other_methods sample_docs_endpoint sample_health_router
           (mkRequest "DELETE" "/" "" [] "") sample_process).
  - reflexivity.
  - discriminate.
  - by apply prefixed_router_not_at_root.
Defined.

Lemma docs_routes_first_witness :
  handle _ sample_app (mkRequest "HEAD" "/docs" "" [] "") sample_process =
  (mkResponse 200 JNull, sample_process).
Proof.
  apply (docs_routes_first sample_docs_endpoint sample_health_router
           (mkRequest "HEAD" "/docs" "" [] "") sample_process).
  - apply list_elem_of_further, list_elem_of_here.
  - by right.
Defined.

Lemma unmatched_path_witness :
  handle _ sample_app (mkRequest "GET" "/health/" "" [] "") sample_process =
  (mkResponse 307 JNull, sample_process).
Proof.
  apply (unmatched_path sample_docs_endpoint sample_health_router
           (mkRequest "GET" "/health/" "" [] "") sample_process);
    [by repeat constructor|reflexivity|].
  simpl. intros Hin. repeat (apply elem_of_cons in Hin as [?|Hin]; [done|]).
  by apply elem_of_nil in Hin.
Defined.

End DispatchWitnesses.
